(** * Shuttle-roid test server: the two FastAPI applications

    [main.py] keeps the last ingested bus report in one module-level
    slot; [morning.py] answers an update-flag check, a full-payload
    fetch and a per-vehicle schedule lookup from JSON files read on
    every request.  The handlers are embedded as functions into an error
    monad whose failures are the Python exceptions the code raises. *)

From Stdlib Require Import ZArith String List Bool Lia.
From Stdlib Require Import SpecFloat.
Import ListNotations.
Local Open Scope string_scope.
Local Open Scope Z_scope.
Set Warnings "-register-all,-notation-for-abbreviation".

(** ** What [json.load] returns

    Python reads a JSON number without fraction or exponent as an
    unbounded [int] and any other number as a binary64 [float]; [null]
    is [None]; an object is a [dict], kept here as an association list
    in which the first binding of a key is the live one. *)

Inductive json : Type :=
| JNull
| JBool (b : bool)
| JInt (n : Z)
| JFloat (f : spec_float)
| JString (s : string)
| JArray (items : list json)
| JObject (fields : list (string * json)).

Fixpoint assoc {A : Type} (k : string) (o : list (string * A)) : option A :=
  match o with
  | [] => None
  | (k', v) :: rest => if String.eqb k' k then Some v else assoc k rest
  end.

Definition is_object (v : json) : bool :=
  match v with JObject _ => true | _ => false end.

Definition is_string (v : json) : bool :=
  match v with JString _ => true | _ => false end.

(** [v == s] for a [str] [s]: only an equal [str] compares equal. *)
Definition eq_str (v : json) (s : string) : bool :=
  match v with JString s' => String.eqb s' s | _ => false end.

(** ** Exceptions and the error monad *)

(** One entry of a pydantic [ValidationError]: the field and the kind. *)
Inductive error_type : Type :=
| missing | string_type | int_invalid | model_type.

Record error_details : Type :=
  { loc : string; type : error_type }.

Inductive exn : Type :=
| HTTPException (status_code : Z) (detail : string)
| RequestValidationError (errors : list error_details)
| ValidationError (errors : list error_details)
| JSONDecodeError (msg : string)
| AttributeError (msg : string)
| KeyError (key : string)
| TypeError
| ValueError
| OverflowError.

Inductive result (A : Type) : Type :=
| Return (a : A)
| Raise (e : exn).
Arguments Return {A} a.
Arguments Raise {A} e.

Definition bind {A B : Type} (c : result A) (k : A -> result B) : result B :=
  match c with
  | Return a => k a
  | Raise e => Raise e
  end.

Notation "x <- c ;; k" := (bind c (fun x => k))
  (at level 61, c at next level, right associativity).

(** A list comprehension whose element expression may raise. *)
Fixpoint mapM {A B : Type} (f : A -> result B) (l : list A) : result (list B) :=
  match l with
  | [] => Return []
  | x :: rest => y <- f x ;; ys <- mapM f rest ;; Return (y :: ys)
  end.

(** A list comprehension with a condition that may raise. *)
Fixpoint filterM {A : Type} (p : A -> result bool) (l : list A) : result (list A) :=
  match l with
  | [] => Return []
  | x :: rest =>
      b <- p x ;; ys <- filterM p rest ;; Return (if b then x :: ys else ys)
  end.

(** The status line FastAPI answers with: the handler's value gives 200,
    an [HTTPException] its own [status_code], a body that fails the
    route's model 422, and any exception the handler lets escape 500. *)
Definition response_status {A : Type} (r : result A) : Z :=
  match r with
  | Return _ => 200
  | Raise (HTTPException c _) => c
  | Raise (RequestValidationError _) => 422
  | Raise _ => 500
  end.

Definition client_error (status : Z) : bool :=
  (400 <=? status) && (status <? 500).

Definition server_error (status : Z) : bool :=
  (500 <=? status) && (status <? 600).

(** ** Dynamic values the handlers receive or build *)

(** [d.get(key, default)]; only a [dict] has the method. *)
Definition py_get (d : json) (key : string) (default : json) : result json :=
  match d with
  | JObject o =>
      Return (match assoc key o with Some v => v | None => default end)
  | _ => Raise (AttributeError "object has no attribute 'get'")
  end.

(** [d[key]] on a [dict]. *)
Definition py_getitem (d : list (string * json)) (key : string) : result json :=
  match assoc key d with
  | Some v => Return v
  | None => Raise (KeyError key)
  end.

(** [int(x)] on a float: truncation towards zero. *)
Definition int_of_float (f : spec_float) : result Z :=
  match f with
  | S754_zero _ => Return 0
  | S754_infinity _ => Raise OverflowError
  | S754_nan => Raise ValueError
  | S754_finite s m e =>
      let a := if 0 <=? e then Z.shiftl (Z.pos m) e
               else Z.shiftr (Z.pos m) (- e) in
      Return (if s then - a else a)
  end.

(** ** Files *)

Definition Path : Type := list string.

Definition path_div (p : Path) (s : string) : Path := (p ++ [s])%list.
Declare Scope path_scope.
Infix "/" := path_div : path_scope.
Delimit Scope path_scope with path.

Definition path_name (p : Path) : string := last p "".

(** What a file holds when a request reads it. *)
Inductive file : Type :=
| NoFile
| BadJson (msg : string)
| Json (v : json).

Definition filesystem : Type := Path -> file.

(** A value passed where the code expects a path. *)
Inductive pathlike : Type :=
| PyPath (p : Path)
| PyStr (s : string).

(** ** pydantic models

    A model validates every field and reports all failures together.
    The field types follow pydantic 2, the version whose configuration
    key [populate_by_name] the code uses: a [str] field takes a [str]
    and nothing else. *)

Inductive validated (A : Type) : Type :=
| Valid (a : A)
| Invalid (errors : list error_details).
Arguments Valid {A} a.
Arguments Invalid {A} errors.

Definition both {A B : Type} (x : validated A) (y : validated B)
  : validated (A * B) :=
  match x, y with
  | Valid a, Valid b => Valid (a, b)
  | Valid _, Invalid e => Invalid e
  | Invalid e, Valid _ => Invalid e
  | Invalid e1, Invalid e2 => Invalid (e1 ++ e2)%list
  end.

(** A required field annotated [str]; [None] is the absent key. *)
Definition str_field (name : string) (v : option json) : validated string :=
  match v with
  | None => Invalid [{| loc := name; type := missing |}]
  | Some (JString s) => Valid s
  | Some _ => Invalid [{| loc := name; type := string_type |}]
  end.

(** A field annotated [Optional[str]] that is passed a value. *)
Definition optional_str_field (name : string) (v : json)
  : validated (option string) :=
  match v with
  | JNull => Valid None
  | JString s => Valid (Some s)
  | _ => Invalid [{| loc := name; type := string_type |}]
  end.

(** ** morning.py *)

Module Morning.

Record Trip : Type :=
  { depTime : string; routeId : Z }.

Record ScheduleResponse : Type :=
  { carNo : string; date : option string; trips : list Trip }.

Definition DATA_DIR : Path := ["data"].
Definition DB_FILE : Path := (DATA_DIR / "db.json")%path.
Definition DB_DATA : Path := (DATA_DIR / "data.json")%path.
Definition SCHEDULES_FILE : Path := (DATA_DIR / "schedules.json")%path.

(** [_read_json] calls [path.exists()], a method of [Path] that a [str]
    does not have. *)
Definition _read_json (fs : filesystem) (path : pathlike) : result json :=
  match path with
  | PyStr _ => Raise (AttributeError "'str' object has no attribute 'exists'")
  | PyPath p =>
      match fs p with
      | NoFile =>
          Raise (HTTPException 500
                   ("Server data file not found: " ++ path_name p))
      | BadJson e =>
          Raise (HTTPException 500
                   ("Invalid JSON in " ++ path_name p ++ ": " ++ e))
      | Json v => Return v
      end
  end.

(** [get_db_json] hands [_read_json] the literal ["data.json"]. *)
Definition get_db_json (fs : filesystem) (orgID : Z) : result json :=
  db <- _read_json fs (PyStr "data.json") ;;
  Return db.

Section Coercions.

(** [int(s)] on a [str]: the parsed integer, or [ValueError]. *)
Variable int_of_str : string -> option Z.

(** What an [int] field of a pydantic model makes of a [float] and of a
    [str] in its default (lax) mode. *)
Variable lax_int_of_float : spec_float -> option Z.
Variable lax_int_of_str : string -> option Z.

(** The builtin [int(x)]. *)
Definition py_int (v : json) : result Z :=
  match v with
  | JInt n => Return n
  | JBool b => Return (Z.b2z b)
  | JFloat f => int_of_float f
  | JString s =>
      match int_of_str s with Some n => Return n | None => Raise ValueError end
  | JNull | JArray _ | JObject _ => Raise TypeError
  end.

Definition check_update (fs : filesystem) (flag orgID : Z) : result bool :=
  db <- _read_json fs (PyPath DB_FILE) ;;
  v <- py_get db "updateFlag" (JInt 0) ;;
  server_flag <- py_int v ;;
  Return (server_flag >? flag).

(** A required field annotated [int]. *)
Definition int_field (name : string) (v : option json) : validated Z :=
  let coerced (r : option Z) :=
    match r with
    | Some n => Valid n
    | None => Invalid [{| loc := name; type := int_invalid |}]
    end in
  match v with
  | None => Invalid [{| loc := name; type := missing |}]
  | Some (JInt n) => Valid n
  | Some (JBool b) => Valid (Z.b2z b)
  | Some (JFloat f) => coerced (lax_int_of_float f)
  | Some (JString s) => coerced (lax_int_of_str s)
  | Some (JNull | JArray _ | JObject _) =>
      Invalid [{| loc := name; type := int_invalid |}]
  end.

Definition Trip_validate (t : list (string * json)) : validated Trip :=
  match both (str_field "depTime" (assoc "depTime" t))
             (int_field "routeId" (assoc "routeId" t)) with
  | Valid (d, r) => Valid {| depTime := d; routeId := r |}
  | Invalid e => Invalid e
  end.

(** A value an [int] field refuses.  A [bool] is taken as 0 or 1, and
    the lax coercion decides for a [float] and a [str]; these are not
    refused although they are not of type [int]. *)
Definition not_int (v : json) : bool :=
  match v with
  | JInt _ | JBool _ => false
  | JFloat f => match lax_int_of_float f with Some _ => false | None => true end
  | JString s => match lax_int_of_str s with Some _ => false | None => true end
  | JNull | JArray _ | JObject _ => true
  end.

(** A trip element that the [Trip] model refuses: it lacks [depTime] or
    [routeId], or its [depTime] is not a [str], or its [routeId] is a
    value the [int] field refuses. *)
Definition trip_malformed (t : list (string * json)) : bool :=
  match assoc "depTime" t, assoc "routeId" t with
  | Some d, Some r => negb (is_string d) || not_int r
  | _, _ => true
  end.

(** [Trip] called on the unpacked [t]: unpacking needs a mapping. *)
Definition Trip_new (t : json) : result Trip :=
  match t with
  | JObject o =>
      match Trip_validate o with
      | Valid x => Return x
      | Invalid e => Raise (ValidationError e)
      end
  | _ => Raise TypeError
  end.

(** [ScheduleResponse(carNo=..., date=..., trips=...)]. *)
Definition ScheduleResponse_new (c d : json) (ts : list Trip)
  : result ScheduleResponse :=
  match both (str_field "carNo" (Some c)) (optional_str_field "date" d) with
  | Valid (c', d') => Return {| carNo := c'; date := d'; trips := ts |}
  | Invalid e => Raise (ValidationError e)
  end.

(** The two conditions of the list comprehensions over [schedules]. *)
Definition today_cond (today_str car_no : string) (s : json) : result bool :=
  c <- py_get s "carNo" JNull ;;
  if eq_str c car_no
  then d <- py_get s "date" (JString today_str) ;; Return (eq_str d today_str)
  else Return false.

Definition car_cond (car_no : string) (s : json) : result bool :=
  c <- py_get s "carNo" JNull ;; Return (eq_str c car_no).

(** Lines 91-97: the chosen entry is checked and converted.  Every
    candidate has answered [s.get], so [s] is a [dict] here and the last
    arm is not reached from [get_schedule]. *)
Definition convert (s : json) : result ScheduleResponse :=
  match s with
  | JObject o =>
      match assoc "trips" o with
      | Some (JArray ts) =>
          trips <- mapM Trip_new ts ;;
          c <- py_getitem o "carNo" ;;
          d <- py_get s "date" JNull ;;
          ScheduleResponse_new c d trips
      | _ =>
          Raise (HTTPException 500 "schedule item must contain 'trips' array")
      end
  | _ => Raise TypeError
  end.

(** Lines 82-91: the candidates and the choice among them. *)
Definition select (today_str car_no : string) (schedules : list json)
  : result json :=
  candidates <- filterM (today_cond today_str car_no) schedules ;;
  candidates <- (match candidates with
                 | [] => filterM (car_cond car_no) schedules
                 | _ => Return candidates
                 end) ;;
  match candidates with
  | [] => Raise (HTTPException 404 ("No schedule for carNo=" ++ car_no))
  | s :: _ => Return s
  end.

(** [today_str] is [date.today().isoformat()] at the time of the call. *)
Definition get_schedule (fs : filesystem) (today_str car_no : string)
  : result ScheduleResponse :=
  doc <- _read_json fs (PyPath SCHEDULES_FILE) ;;
  schedules <- py_get doc "schedules" (JArray []) ;;
  match schedules with
  | JArray schedules =>
      s <- select today_str car_no schedules ;;
      convert s
  | _ =>
      Raise (HTTPException 500 "schedules.json must contain 'schedules' array")
  end.

End Coercions.

End Morning.

(** ** main.py *)

Module Main.

Record BusReport : Type :=
  { vehicle_no : string; route : string; stop_location : string }.

Record StoredData : Type :=
  { received_at : string; source_ip : string; payload : BusReport }.

(** A field declared with [Field(alias=...)] under [populate_by_name]:
    the alias is looked up first, the field's own name second. *)
Definition by_alias_or_name (alias name : string) (o : list (string * json))
  : option json :=
  match assoc alias o with
  | Some v => Some v
  | None => assoc name o
  end.

(** A [str] field with an alias: the value is checked under the key it
    was found at, and an absent field is reported at the alias. *)
Definition aliased_str_field (alias name : string) (o : list (string * json))
  : validated string :=
  match assoc alias o with
  | Some v => str_field alias (Some v)
  | None =>
      match assoc name o with
      | Some v => str_field name (Some v)
      | None => str_field alias None
      end
  end.

(** The request body against [BusReport]; [extra = "ignore"] drops every
    other key. *)
Definition BusReport_validate (body : json) : validated BusReport :=
  match body with
  | JObject o =>
      match both (aliased_str_field "vehicleNo" "vehicle_no" o)
              (both (str_field "route" (assoc "route" o))
                 (aliased_str_field "stopLocation" "stop_location" o)) with
      | Valid (v, (r, l)) =>
          Valid {| vehicle_no := v; route := r; stop_location := l |}
      | Invalid e => Invalid e
      end
  | _ => Invalid [{| loc := "body"; type := model_type |}]
  end.

(** The module-level slot [_latest], [None] when the process starts. *)
Definition store : Type := option StoredData.
Definition _latest : store := None.

(** [ingest]: [now] is [datetime.now().isoformat(timespec="seconds")] and
    [client] is [request.client.host] when the request has a client.  The
    result is the returned record and the new slot. *)
Definition ingest (latest : store) (now : string) (client : option string)
  (payload : BusReport) : StoredData * store :=
  let client_ip := match client with Some host => host | None => "unknown" end in
  let record :=
    {| received_at := now; source_ip := client_ip; payload := payload |} in
  (record, Some record).

(** [POST /ingest]: the body parameter [payload: BusReport] is built from
    the request body before [ingest] runs; a body that fails the model is
    answered without calling it. *)
Definition post_ingest (latest : store) (now : string) (client : option string)
  (body : json) : result StoredData * store :=
  match BusReport_validate body with
  | Valid payload =>
      let '(record, latest') := ingest latest now client payload in
      (Return record, latest')
  | Invalid e => (Raise (RequestValidationError e), latest)
  end.

Definition get_data (latest : store) : option StoredData := latest.

(** This module's [_read_json] turns its argument into a [Path] first and
    does not catch the decoder's exception. *)
Definition _read_json (fs : filesystem) (path : string) : result json :=
  let p : Path := [path] in
  match fs p with
  | NoFile => Raise (HTTPException 500 ("File not found: " ++ path))
  | BadJson e => Raise (JSONDecodeError e)
  | Json v => Return v
  end.

Definition get_db_json (fs : filesystem) (orgID : Z) : result json :=
  db <- _read_json fs "data.json" ;;
  Return db.

End Main.

(** ** The schedule choice in the specification's words

    An entry matches when its [carNo] is the requested one; it counts for
    today when its [date] is today's or it has none.  The choice is the
    first entry that matches and counts for today, and without such an
    entry the first that matches. *)

Definition carNo_matches (car_no : string) (s : json) : bool :=
  match s with
  | JObject o =>
      match assoc "carNo" o with
      | Some v => eq_str v car_no
      | None => false
      end
  | _ => false
  end.

Definition date_today_or_absent (today : string) (s : json) : bool :=
  match s with
  | JObject o =>
      match assoc "date" o with
      | Some v => eq_str v today
      | None => true
      end
  | _ => false
  end.

Definition first_match (today car_no : string) (l : list json) : option json :=
  match find (fun s => carNo_matches car_no s && date_today_or_absent today s) l with
  | Some s => Some s
  | None => find (carNo_matches car_no) l
  end.

(** A field that a [str] check turns down: absent, or not a [str]. *)
Definition absent_or_not_str (v : option json) : bool :=
  match v with
  | Some (JString _) => false
  | _ => true
  end.

(** A report object in which the vehicle identifier, the route or the
    stop location is, after the two spellings are resolved, absent or
    not a [str]. *)
Definition report_incomplete (o : list (string * json)) : bool :=
  absent_or_not_str (Main.by_alias_or_name "vehicleNo" "vehicle_no" o)
  || absent_or_not_str (assoc "route" o)
  || absent_or_not_str (Main.by_alias_or_name "stopLocation" "stop_location" o).

Definition is_array (v : json) : bool :=
  match v with JArray _ => true | _ => false end.

(** The errors a validation reports, none when it succeeds. *)
Definition errors_of {A : Type} (r : validated A) : list error_details :=
  match r with
  | Valid _ => []
  | Invalid e => e
  end.

(** The key at which an aliased field is reported: the one its value
    was found at, the alias when the field is absent. *)
Definition reported_key (alias name : string) (o : list (string * json))
  : string :=
  match assoc alias o, assoc name o with
  | None, Some _ => name
  | _, _ => alias
  end.

(** The kind of error a [str] field reports for a value it refuses. *)
Definition refusal (v : option json) : error_type :=
  match v with
  | None => missing
  | Some _ => string_type
  end.

(** The keys [BusReport] reads from a request body. *)
Definition report_keys : list string :=
  ["vehicleNo"; "vehicle_no"; "route"; "stopLocation"; "stop_location"].

(** ** Requests to [POST /ingest] served one after the other *)

Record ingest_request : Type :=
  { at_time : string; from_client : option string; body : json }.

Definition serve_one (latest : Main.store) (r : ingest_request) : Main.store :=
  snd (Main.post_ingest latest (at_time r) (from_client r) (body r)).

Definition serve (latest : Main.store) (reqs : list ingest_request)
  : Main.store :=
  fold_left serve_one reqs latest.

Definition accepted (r : ingest_request) : bool :=
  match Main.BusReport_validate (body r) with
  | Valid _ => true
  | Invalid _ => false
  end.

(** ** Concrete files and requests *)

Module Examples.

Fixpoint path_eqb (p q : Path) : bool :=
  match p, q with
  | [], [] => true
  | a :: p', b :: q' => String.eqb a b && path_eqb p' q'
  | _, _ => false
  end.

(** A disk that holds one JSON file. *)
Definition one_file (p : Path) (v : json) : filesystem :=
  fun q => if path_eqb p q then Json v else NoFile.

(** Coercions that accept plain decimal digits only. *)
Fixpoint digits (acc : Z) (s : string) : option Z :=
  match s with
  | EmptyString => Some acc
  | String c rest =>
      let n := Z.of_nat (Ascii.nat_of_ascii c) in
      if (48 <=? n) && (n <=? 57) then digits (10 * acc + (n - 48)) rest
      else None
  end.

Definition int_of_str (s : string) : option Z :=
  match s with EmptyString => None | _ => digits 0 s end.

Definition lax_int_of_float (f : spec_float) : option Z :=
  match f with S754_zero _ => Some 0 | _ => None end.

Definition entry (car_no : string) (date : option string) (trips : json) : json :=
  JObject (("carNo", JString car_no)
           :: match date with
              | Some d => [("date", JString d)]
              | None => []
              end ++ [("trips", trips)])%list.

Definition trip (dep : string) (route : Z) : json :=
  JObject [("depTime", JString dep); ("routeId", JInt route)].

Definition schedules_file (l : list json) : filesystem :=
  one_file Morning.SCHEDULES_FILE (JObject [("schedules", JArray l)]).

Definition db_file (fields : list (string * json)) : filesystem :=
  one_file Morning.DB_FILE (JObject fields).

Definition get_schedule :=
  Morning.get_schedule lax_int_of_float int_of_str.

Definition convert := Morning.convert lax_int_of_float int_of_str.

Definition check_update := Morning.check_update int_of_str.

Definition camel (v r l : string) : json :=
  JObject [("vehicleNo", JString v); ("route", JString r);
           ("stopLocation", JString l)].

Definition snake (v r l : string) : json :=
  JObject [("vehicle_no", JString v); ("route", JString r);
           ("stop_location", JString l)].

Definition today : string := "2024-05-05".

(** The car "A" scheduled for a past day, then for today. *)
Definition past_then_today : list json :=
  [ entry "A" (Some "2024-01-01") (JArray [trip "08:00" 1]);
    entry "A" (Some today) (JArray [trip "09:00" 2]) ].

(** Around the entry chosen for "A": an entry of another car without
    [trips], and a later entry of "A" whose trip has no [depTime]. *)
Definition among_broken : list json :=
  [ JObject [("carNo", JString "B")];
    entry "A" None (JArray [trip "09:00" 2]);
    entry "A" (Some today) (JArray [JObject [("routeId", JInt 3)]]) ].

(** The only entry of "A" has a trip without [depTime]. *)
Definition broken_trip : list json :=
  [ entry "A" None (JArray [trip "07:30" 1; JObject [("routeId", JInt 3)]]) ].

Definition response_A : Morning.ScheduleResponse :=
  {| Morning.carNo := "A"; Morning.date := Some today;
     Morning.trips := [{| Morning.depTime := "09:00"; Morning.routeId := 2 |}] |}.

End Examples.

(** * Properties *)

(** ** Comprehensions over well-formed collections *)

Lemma filterM_pure {A : Type} (p : A -> result bool) (q : A -> bool)
  (ok : A -> bool) (l : list A) :
  (forall x, ok x = true -> p x = Return (q x)) ->
  forallb ok l = true ->
  filterM p l = Return (filter q l).
Proof.
  intros Hp. induction l as [|x rest IH]; simpl; intros Hl.
  - reflexivity.
  - apply andb_prop in Hl as [Hx Hrest].
    rewrite (Hp x Hx), (IH Hrest). simpl. reflexivity.
Qed.

Lemma filterM_sound {A : Type} (p : A -> result bool) (l c : list A) :
  filterM p l = Return c -> Forall (fun x => p x = Return true) c.
Proof.
  revert c. induction l as [|x rest IH]; simpl; intros c H.
  - injection H as <-. constructor.
  - destruct (p x) as [b|e] eqn:Hpx; simpl in H; [|discriminate].
    destruct (filterM p rest) as [ys|e]; simpl in H; [|discriminate].
    injection H as <-. specialize (IH ys eq_refl).
    destruct b; [constructor|]; assumption.
Qed.

Lemma find_hd_filter {A : Type} (q : A -> bool) (l : list A) :
  find q l = hd_error (filter q l).
Proof.
  induction l as [|x rest IH]; simpl; [reflexivity|].
  destruct (q x); [reflexivity | exact IH].
Qed.

Lemma find_none_existsb {A : Type} (q : A -> bool) (l : list A) :
  find q l = None <-> existsb q l = false.
Proof.
  induction l as [|x rest IH]; simpl; [tauto|].
  destruct (q x); simpl; [split; discriminate | exact IH].
Qed.

Section MorningFacts.

Variable int_of_str : string -> option Z.
Variable lax_int_of_float : spec_float -> option Z.
Variable lax_int_of_str : string -> option Z.

Local Notation check_update := (Morning.check_update int_of_str).
Local Notation Trip_validate :=
  (Morning.Trip_validate lax_int_of_float lax_int_of_str).
Local Notation Trip_new := (Morning.Trip_new lax_int_of_float lax_int_of_str).
Local Notation convert := (Morning.convert lax_int_of_float lax_int_of_str).
Local Notation get_schedule :=
  (Morning.get_schedule lax_int_of_float lax_int_of_str).

Lemma today_cond_object (today car_no : string) (s : json) :
  is_object s = true ->
  Morning.today_cond today car_no s =
  Return (carNo_matches car_no s && date_today_or_absent today s).
Proof.
  destruct s; try discriminate. intros _.
  unfold Morning.today_cond. simpl.
  destruct (assoc "carNo" fields) as [v|]; simpl; [|reflexivity].
  destruct (eq_str v car_no); simpl; [|reflexivity].
  destruct (assoc "date" fields) as [d|]; simpl; [reflexivity|].
  rewrite String.eqb_refl. reflexivity.
Qed.

Lemma car_cond_object (car_no : string) (s : json) :
  is_object s = true ->
  Morning.car_cond car_no s = Return (carNo_matches car_no s).
Proof.
  destruct s; try discriminate. intros _.
  unfold Morning.car_cond. simpl.
  destruct (assoc "carNo" fields); reflexivity.
Qed.

(** On a list of objects the code's two comprehensions and its
    [candidates[0]] make the choice [first_match] describes. *)
Lemma select_first_match (today car_no : string) (l : list json) :
  forallb is_object l = true ->
  Morning.select today car_no l =
  match first_match today car_no l with
  | Some s => Return s
  | None => Raise (HTTPException 404 ("No schedule for carNo=" ++ car_no))
  end.
Proof.
  intros Hl. unfold Morning.select, first_match.
  rewrite (filterM_pure _ _ _ _ (today_cond_object today car_no) Hl).
  rewrite !find_hd_filter. simpl.
  destruct (filter _ l) as [|s rest] eqn:Hc; simpl; [|reflexivity].
  rewrite (filterM_pure _ _ _ _ (car_cond_object car_no) Hl). simpl.
  destruct (filter (carNo_matches car_no) l); reflexivity.
Qed.

Lemma get_schedule_unfold (fs : filesystem) (today car_no : string)
  (doc : list (string * json)) (l : list json) :
  fs Morning.SCHEDULES_FILE = Json (JObject doc) ->
  assoc "schedules" doc = Some (JArray l) ->
  get_schedule fs today car_no =
  (s <- Morning.select today car_no l ;; convert s).
Proof.
  intros Hfs Hdoc. unfold Morning.get_schedule, Morning._read_json.
  rewrite Hfs. simpl. rewrite Hdoc. reflexivity.
Qed.

Lemma get_schedule_first_match_gen (fs : filesystem) (today car_no : string)
  (doc : list (string * json)) (l : list json) :
  fs Morning.SCHEDULES_FILE = Json (JObject doc) ->
  assoc "schedules" doc = Some (JArray l) ->
  forallb is_object l = true ->
  get_schedule fs today car_no =
  match first_match today car_no l with
  | Some s => convert s
  | None => Raise (HTTPException 404 ("No schedule for carNo=" ++ car_no))
  end.
Proof.
  intros Hfs Hdoc Hl.
  rewrite (get_schedule_unfold _ _ _ _ _ Hfs Hdoc), (select_first_match _ _ _ Hl).
  destruct (first_match today car_no l); reflexivity.
Qed.

(** ** What the chosen entry is, and what converting it can raise *)

Lemma car_cond_true (car_no : string) (s : json) :
  Morning.car_cond car_no s = Return true ->
  exists o, s = JObject o /\ assoc "carNo" o = Some (JString car_no).
Proof.
  destruct s; try discriminate. unfold Morning.car_cond. simpl.
  destruct (assoc "carNo" fields) as [v|] eqn:Hv; simpl; [|discriminate].
  destruct v; simpl; try discriminate.
  intros H. injection H as H. apply String.eqb_eq in H. subst s.
  exists fields. split; [reflexivity | exact Hv].
Qed.

Lemma today_cond_car_cond (today car_no : string) (s : json) :
  Morning.today_cond today car_no s = Return true ->
  Morning.car_cond car_no s = Return true.
Proof.
  unfold Morning.today_cond, Morning.car_cond.
  destruct (py_get s "carNo" JNull) as [c|e]; simpl; [|discriminate].
  destruct (eq_str c car_no); [reflexivity | discriminate].
Qed.

Lemma select_sound (today car_no : string) (l : list json) (s : json) :
  Morning.select today car_no l = Return s ->
  exists o, s = JObject o /\ assoc "carNo" o = Some (JString car_no).
Proof.
  unfold Morning.select.
  destruct (filterM (Morning.today_cond today car_no) l) as [c|e] eqn:Hc;
    simpl; [|discriminate].
  apply filterM_sound in Hc. destruct c as [|x c].
  - destruct (filterM (Morning.car_cond car_no) l) as [c'|e] eqn:Hc';
      simpl; [|discriminate].
    apply filterM_sound in Hc'. destruct c' as [|x c']; [discriminate|].
    intros H. injection H as <-. inversion_clear Hc' as [|? ? Hx _].
    apply car_cond_true; assumption.
  - simpl. intros H. injection H as <-. inversion_clear Hc as [|? ? Hx _].
    apply car_cond_true, today_cond_car_cond with today; assumption.
Qed.

Lemma mapM_Trip_new_raise (ts : list json) (e : exn) :
  mapM Trip_new ts = Raise e ->
  e = TypeError \/ exists errs, e = ValidationError errs.
Proof.
  induction ts as [|t ts IH]; simpl; [discriminate|].
  destruct (Trip_new t) as [x|e'] eqn:Ht; simpl.
  - destruct (mapM Trip_new ts) as [xs|e'']; simpl; [discriminate|].
    intros H. injection H as ->. apply IH. reflexivity.
  - intros H. injection H as ->. unfold Morning.Trip_new in Ht.
    destruct t; try (injection Ht as <-; left; reflexivity).
    destruct (Trip_validate fields); [discriminate|].
    injection Ht as <-. right. eexists. reflexivity.
Qed.

(** Converting an entry raises no [HTTPException] but the explicit 500. *)
Lemma convert_http (s : json) (c : Z) (d : string) :
  convert s = Raise (HTTPException c d) -> c = 500.
Proof.
  destruct s; simpl; try discriminate.
  destruct (assoc "trips" fields) as [[| | | | |ts|]|];
    try (intros H; injection H as <- _; reflexivity).
  destruct (mapM Trip_new ts) as [trips|e] eqn:Hts; simpl.
  - unfold py_getitem. destruct (assoc "carNo" fields) as [v|]; simpl;
      [|discriminate].
    unfold Morning.ScheduleResponse_new.
    destruct (both _ _) as [[? ?]|?]; discriminate.
  - intros H. injection H as ->.
    apply mapM_Trip_new_raise in Hts as [Hts|[errs Hts]]; discriminate.
Qed.

Lemma convert_carNo (o : list (string * json)) (car_no : string)
  (r : Morning.ScheduleResponse) :
  assoc "carNo" o = Some (JString car_no) ->
  convert (JObject o) = Return r -> Morning.carNo r = car_no.
Proof.
  intros Hc. simpl.
  destruct (assoc "trips" o) as [[| | | | |ts|]|]; try discriminate.
  destruct (mapM Trip_new ts) as [trips|e]; simpl; [|discriminate].
  unfold py_getitem. rewrite Hc. simpl.
  unfold Morning.ScheduleResponse_new. simpl.
  destruct (optional_str_field "date" _); simpl; [|discriminate].
  intros H. injection H as <-. reflexivity.
Qed.

(** An element of [schedules] that is not an object stops the first
    comprehension: it has no [get]. *)
Lemma select_non_object (today car_no : string) (l : list json) :
  existsb (fun s => negb (is_object s)) l = true ->
  Morning.select today car_no l
  = Raise (AttributeError "object has no attribute 'get'").
Proof.
  intros Hl. unfold Morning.select.
  assert (filterM (Morning.today_cond today car_no) l
          = Raise (AttributeError "object has no attribute 'get'")) as ->;
    [|reflexivity].
  induction l as [|x l IH]; simpl in *; [discriminate|].
  destruct (is_object x) eqn:Hx; simpl in Hl.
  - rewrite (today_cond_object today car_no x Hx). simpl.
    rewrite (IH Hl). reflexivity.
  - destruct x; try discriminate; reflexivity.
Qed.

(** ** Schedule lookup *)

(** C1: on a schedules file whose entries are objects, [get_schedule]
    answers from the first entry, in file order, whose [carNo] is the
    requested one and whose [date] is today's or absent, and when there
    is no such entry from the first entry whose [carNo] is the requested
    one; with one entry of the car dated another day followed by one
    dated today, the answer comes from the entry dated today. *)
Theorem get_schedule_selects_first_match
  (fs : filesystem) (today car_no : string)
  (doc : list (string * json)) (l : list json) :
  fs Morning.SCHEDULES_FILE = Json (JObject doc) ->
  assoc "schedules" doc = Some (JArray l) ->
  forallb is_object l = true ->
  get_schedule fs today car_no =
    match first_match today car_no l with
    | Some s => convert s
    | None => Raise (HTTPException 404 ("No schedule for carNo=" ++ car_no))
    end
  /\ (forall (past : string) (trips1 trips2 : json),
        past <> today ->
        l = [ JObject [("carNo", JString car_no); ("date", JString past);
                       ("trips", trips1)];
              JObject [("carNo", JString car_no); ("date", JString today);
                       ("trips", trips2)] ] ->
        get_schedule fs today car_no =
          convert (JObject [("carNo", JString car_no); ("date", JString today);
                            ("trips", trips2)])).
Proof.
  intros Hfs Hdoc Hl.
  pose proof (get_schedule_first_match_gen fs today car_no doc l Hfs Hdoc Hl)
    as Hgen.
  split; [exact Hgen|].
  intros past trips1 trips2 Hpast ->. rewrite Hgen.
  unfold first_match. simpl. rewrite !String.eqb_refl.
  apply String.eqb_neq in Hpast. rewrite Hpast. reflexivity.
Qed.

(** C8: on a schedules file whose entries are objects, [get_schedule]
    raises the 404 [HTTPException] exactly when no entry has the
    requested [carNo]; an entry with that [carNo], whatever its date,
    rules the 404 out. *)
Theorem get_schedule_not_found_iff
  (fs : filesystem) (today car_no : string)
  (doc : list (string * json)) (l : list json) :
  fs Morning.SCHEDULES_FILE = Json (JObject doc) ->
  assoc "schedules" doc = Some (JArray l) ->
  forallb is_object l = true ->
  (exists detail,
      get_schedule fs today car_no = Raise (HTTPException 404 detail))
  <-> existsb (carNo_matches car_no) l = false.
Proof.
  intros Hfs Hdoc Hl.
  rewrite (get_schedule_first_match_gen fs today car_no doc l Hfs Hdoc Hl).
  unfold first_match.
  destruct (find (fun s => carNo_matches car_no s && date_today_or_absent today s) l)
    as [s|] eqn:Hf1.
  - apply find_some in Hf1 as [Hin Hs]. apply andb_prop in Hs as [Hs _].
    split.
    + intros [d Hd]. apply convert_http in Hd. discriminate.
    + intros Hex. assert (existsb (carNo_matches car_no) l = true) as Ht
        by (apply existsb_exists; exists s; split; assumption).
      congruence.
  - destruct (find (carNo_matches car_no) l) as [s|] eqn:Hf2.
    + apply find_some in Hf2 as [Hin Hs]. split.
      * intros [d Hd]. apply convert_http in Hd. discriminate.
      * intros Hex. assert (existsb (carNo_matches car_no) l = true) as Ht
          by (apply existsb_exists; exists s; split; assumption).
        congruence.
    + split; [intros _; apply find_none_existsb; exact Hf2|].
      intros _. eexists. reflexivity.
Qed.

(** C9: whenever [get_schedule] returns a response, the response's
    [carNo] is the requested one. *)
Theorem get_schedule_returns_requested_carNo
  (fs : filesystem) (today car_no : string) (r : Morning.ScheduleResponse) :
  get_schedule fs today car_no = Return r -> Morning.carNo r = car_no.
Proof.
  unfold Morning.get_schedule.
  destruct (Morning._read_json fs _) as [doc|e]; simpl; [|discriminate].
  destruct (py_get doc "schedules" (JArray [])) as [sch|e]; simpl;
    [|discriminate].
  destruct sch; try discriminate.
  destruct (Morning.select today car_no items) as [s|e] eqn:Hs; simpl;
    [|discriminate].
  apply select_sound in Hs as (o & -> & Hc).
  apply convert_carNo. exact Hc.
Qed.

(** C10 (as amended): on a schedules file whose elements are all
    objects, the outcome of [get_schedule] is the outcome of converting
    the chosen entry alone: when that entry converts, the call returns
    its response, and any exception of the call is one that converting
    that entry raises, so no other entry, with or without a usable
    [trips] array, makes the call fail.  An element that is not an
    object does make the call fail, wherever it stands and whatever car
    is asked for: the first comprehension raises [AttributeError]. *)
Theorem get_schedule_validates_only_selected
  (fs : filesystem) (today car_no : string)
  (doc : list (string * json)) (l : list json) (s : json) :
  fs Morning.SCHEDULES_FILE = Json (JObject doc) ->
  assoc "schedules" doc = Some (JArray l) ->
  (forallb is_object l = true ->
   first_match today car_no l = Some s ->
   (forall r, convert s = Return r -> get_schedule fs today car_no = Return r)
   /\ (forall e, get_schedule fs today car_no = Raise e -> convert s = Raise e))
  /\ (existsb (fun x => negb (is_object x)) l = true ->
      get_schedule fs today car_no
      = Raise (AttributeError "object has no attribute 'get'")).
Proof.
  intros Hfs Hdoc. split.
  - intros Hl Hsel.
    rewrite (get_schedule_first_match_gen fs today car_no doc l Hfs Hdoc Hl),
      Hsel.
    split; intros ? H; exact H.
  - intros Hl.
    rewrite (get_schedule_unfold fs today car_no doc l Hfs Hdoc),
      (select_non_object today car_no l Hl).
    reflexivity.
Qed.

(** ** Malformed trips in the chosen entry *)

Lemma not_int_invalid (name : string) (r : json) :
  Morning.not_int lax_int_of_float lax_int_of_str r = true ->
  exists e,
    Morning.int_field lax_int_of_float lax_int_of_str name (Some r) = Invalid e.
Proof.
  destruct r; simpl; try discriminate; try (eexists; reflexivity).
  - destruct (lax_int_of_float f); [discriminate | eexists; reflexivity].
  - destruct (lax_int_of_str s); [discriminate | eexists; reflexivity].
Qed.

Lemma trip_malformed_invalid (t : list (string * json)) :
  Morning.trip_malformed lax_int_of_float lax_int_of_str t = true ->
  exists errs, Trip_new (JObject t) = Raise (ValidationError errs).
Proof.
  unfold Morning.trip_malformed, Morning.Trip_new, Morning.Trip_validate.
  destruct (assoc "depTime" t) as [d|]; destruct (assoc "routeId" t) as [r|].
  - intros H.
    remember (Morning.int_field lax_int_of_float lax_int_of_str
                "routeId" (Some r)) as I eqn:HI.
    apply orb_prop in H as [H|H].
    + destruct d; try discriminate; destruct I; simpl; eexists; reflexivity.
    + destruct (not_int_invalid "routeId" r H) as [e He].
      rewrite HI, He.
      destruct (str_field "depTime" (Some d)); simpl; eexists; reflexivity.
  - intros _. destruct (str_field "depTime" (Some d)); simpl;
      eexists; reflexivity.
  - intros _.
    destruct (Morning.int_field lax_int_of_float lax_int_of_str
                "routeId" (Some r)); simpl; eexists; reflexivity.
  - intros _. simpl. eexists. reflexivity.
Qed.

Lemma mapM_raises {A B : Type} (f : A -> result B) (l : list A) (x : A)
  (e0 : exn) :
  In x l -> f x = Raise e0 -> exists e, mapM f l = Raise e.
Proof.
  intros Hin Hx. induction l as [|y l IH]; simpl; [contradiction|].
  destruct (f y) as [b|e] eqn:Hy; simpl; [|eexists; reflexivity].
  destruct Hin as [->|Hin]; [congruence|].
  destruct (IH Hin) as [e He]. rewrite He. simpl. eexists. reflexivity.
Qed.

Lemma mapM_Trip_new_objects (ts : list json) (e : exn) :
  forallb is_object ts = true ->
  mapM Trip_new ts = Raise e -> exists errs, e = ValidationError errs.
Proof.
  induction ts as [|t ts IH]; simpl; [discriminate|].
  intros Hts. apply andb_prop in Hts as [Ht Hts].
  destruct t; try discriminate. simpl.
  destruct (Trip_validate fields); simpl.
  - destruct (mapM Trip_new ts) as [xs|e']; simpl; [discriminate|].
    intros H. injection H as ->. apply IH; [assumption | reflexivity].
  - intros H. injection H as <-. eexists. reflexivity.
Qed.

(** C4 (as amended): when the chosen entry has a [trips] array with an
    object element that the [Trip] model refuses, that is, one that
    lacks [depTime] or [routeId], or whose [depTime] is not a string, or
    whose [routeId] is a value the [int] field refuses (null, an array,
    an object, or a float or string its lax coercion does not take; a
    [bool] is taken), [get_schedule] fails with an exception that the
    handler does not turn into an [HTTPException]: a pydantic
    [ValidationError] when every trip element is an object, a
    [TypeError] otherwise possible; the caller gets status 500, a server
    error and not a client error. *)
Theorem get_schedule_malformed_trip_server_error
  (fs : filesystem) (today car_no : string)
  (doc : list (string * json)) (l : list json)
  (o : list (string * json)) (ts : list json) (t : list (string * json)) :
  fs Morning.SCHEDULES_FILE = Json (JObject doc) ->
  assoc "schedules" doc = Some (JArray l) ->
  forallb is_object l = true ->
  first_match today car_no l = Some (JObject o) ->
  assoc "trips" o = Some (JArray ts) ->
  In (JObject t) ts ->
  Morning.trip_malformed lax_int_of_float lax_int_of_str t = true ->
  exists e,
    get_schedule fs today car_no = Raise e
    /\ (e = TypeError \/ exists errs, e = ValidationError errs)
    /\ (forallb is_object ts = true -> exists errs, e = ValidationError errs)
    /\ response_status (get_schedule fs today car_no) = 500
    /\ client_error (response_status (get_schedule fs today car_no)) = false
    /\ server_error (response_status (get_schedule fs today car_no)) = true.
Proof.
  intros Hfs Hdoc Hl Hsel Htrips Hin Hbad.
  rewrite (get_schedule_first_match_gen fs today car_no doc l Hfs Hdoc Hl), Hsel.
  simpl. rewrite Htrips.
  destruct (trip_malformed_invalid t Hbad) as [errs0 Ht].
  destruct (mapM_raises _ _ _ _ Hin Ht) as [e He].
  rewrite He. simpl. exists e.
  pose proof (mapM_Trip_new_raise ts e He) as Hkind.
  split; [reflexivity|]. split; [exact Hkind|].
  split; [intros Hobj; exact (mapM_Trip_new_objects ts e Hobj He)|].
  destruct Hkind as [->|[errs ->]]; repeat split; reflexivity.
Qed.

(** ** Update check *)

(** C2: when the update descriptor is an object whose [updateFlag] is
    the integer [serverFlag], or has no [updateFlag] and [serverFlag] is
    0, [check_update] returns whether [serverFlag > flag], whatever
    [orgID] is; with [serverFlag = 5] the answers for 4, 5 and 6 are
    true, false and false. *)
Theorem check_update_compares_flags
  (fs : filesystem) (doc : list (string * json))
  (serverFlag flag orgID orgID' : Z) :
  fs Morning.DB_FILE = Json (JObject doc) ->
  (assoc "updateFlag" doc = Some (JInt serverFlag)
   \/ (assoc "updateFlag" doc = None /\ serverFlag = 0)) ->
  check_update fs flag orgID = Return (serverFlag >? flag)
  /\ (check_update fs flag orgID = Return true <-> serverFlag > flag)
  /\ check_update fs flag orgID' = check_update fs flag orgID
  /\ (serverFlag = 5 ->
      check_update fs 4 orgID = Return true
      /\ check_update fs 5 orgID = Return false
      /\ check_update fs 6 orgID = Return false).
Proof.
  intros Hfs Hflag.
  assert (forall f org, check_update fs f org = Return (serverFlag >? f)) as H.
  { intros f org. unfold Morning.check_update, Morning._read_json.
    rewrite Hfs. simpl.
    destruct Hflag as [-> | [-> ->]]; reflexivity. }
  split; [apply H|]. split.
  - rewrite H. split.
    + intros Heq. injection Heq as Heq. apply Z.gtb_lt in Heq. lia.
    + intros Hgt. f_equal. apply Z.gtb_lt. lia.
  - split; [rewrite !H; reflexivity|].
    intros ->. rewrite !H. repeat split; reflexivity.
Qed.

End MorningFacts.

(** ** Full-payload fetch *)

(** C3: [get_db_json] of [morning.py] raises [AttributeError] for every
    state of the disk, also when [data.json] exists and holds
    well-formed JSON, because [_read_json] receives a [str]; the caller
    gets status 500 and never the file's contents. *)
Theorem get_db_json_raises_attribute_error (fs : filesystem) (orgID : Z) :
  Morning.get_db_json fs orgID
  = Raise (AttributeError "'str' object has no attribute 'exists'")
  /\ response_status (Morning.get_db_json fs orgID) = 500
  /\ (forall v, Morning.get_db_json fs orgID <> Return v).
Proof.
  repeat split. intros v H. discriminate H.
Qed.

(** The same handler in [main.py] converts the name to a path and does
    return the contents of a well-formed file. *)
Lemma main_get_db_json_reads_file (fs : filesystem) (orgID : Z) :
  match fs ["data.json"] with
  | Json v => Main.get_db_json fs orgID = Return v
  | BadJson e => Main.get_db_json fs orgID = Raise (JSONDecodeError e)
  | NoFile =>
      Main.get_db_json fs orgID
      = Raise (HTTPException 500 "File not found: data.json")
  end.
Proof.
  unfold Main.get_db_json, Main._read_json.
  destruct (fs ["data.json"]); reflexivity.
Qed.

(** With the path constant the module defines for this file,
    [_read_json] of [morning.py] would answer like [check_update]'s
    read does. *)
Lemma morning_read_json_path (fs : filesystem) (p : Path) :
  Morning._read_json fs (PyPath p) =
  match fs p with
  | Json v => Return v
  | BadJson e =>
      Raise (HTTPException 500 ("Invalid JSON in " ++ path_name p ++ ": " ++ e))
  | NoFile =>
      Raise (HTTPException 500 ("Server data file not found: " ++ path_name p))
  end.
Proof.
  unfold Morning._read_json. destruct (fs p); reflexivity.
Qed.

(** ** The single-slot store *)

Lemma post_ingest_valid (latest : Main.store) (now : string)
  (client : option string) (body : json) (p : Main.BusReport) :
  Main.BusReport_validate body = Valid p ->
  Main.post_ingest latest now client body =
  (Return (fst (Main.ingest latest now client p)),
   Some (fst (Main.ingest latest now client p))).
Proof.
  intros H. unfold Main.post_ingest. rewrite H. reflexivity.
Qed.

(** C5: after a valid report [a] and then a valid report [b] are
    ingested, [get_data] returns the record made for [b], whose payload
    is [b]'s validated report and whose other fields are those of the
    second request, with nothing of [a] in it; on the initial slot
    [get_data] returns [None]. *)
Theorem get_data_returns_last_ingested
  (latest : Main.store) (now_a now_b : string) (client_a client_b : option string)
  (a b : json) (A B : Main.BusReport) :
  Main.BusReport_validate a = Valid A ->
  Main.BusReport_validate b = Valid B ->
  let after_a := snd (Main.post_ingest latest now_a client_a a) in
  let answer_b := Main.post_ingest after_a now_b client_b b in
  let record_b :=
    {| Main.received_at := now_b;
       Main.source_ip := match client_b with Some h => h | None => "unknown" end;
       Main.payload := B |} in
  fst answer_b = Return record_b
  /\ Main.get_data (snd answer_b) = Some record_b
  /\ Main.get_data Main._latest = None.
Proof.
  intros HA HB. cbv zeta.
  rewrite (post_ingest_valid _ _ _ _ _ HA). simpl snd.
  rewrite (post_ingest_valid _ _ _ _ _ HB). simpl.
  repeat split; reflexivity.
Qed.

(** C6: a report spelled with [vehicleNo] and [stopLocation] and a report
    spelled with [vehicle_no] and [stop_location], with the same three
    strings, are both accepted and stored with the same payload. *)
Theorem ingest_alias_equivalence
  (latest latest' : Main.store) (now now' : string)
  (client client' : option string) (v r l : string) :
  let camel := JObject [("vehicleNo", JString v); ("route", JString r);
                        ("stopLocation", JString l)] in
  let snake := JObject [("vehicle_no", JString v); ("route", JString r);
                        ("stop_location", JString l)] in
  exists rc rs,
    Main.post_ingest latest now client camel = (Return rc, Some rc)
    /\ Main.post_ingest latest' now' client' snake = (Return rs, Some rs)
    /\ Main.payload rc = Main.payload rs
    /\ Main.payload rc
       = {| Main.vehicle_no := v; Main.route := r; Main.stop_location := l |}.
Proof.
  cbv zeta. do 2 eexists. repeat split; reflexivity.
Qed.

Lemma str_field_rejects (name : string) (v : option json) :
  absent_or_not_str v = true -> exists e, str_field name v = Invalid e.
Proof.
  destruct v as [[| | | | | |]|]; simpl; try discriminate;
    intros _; eexists; reflexivity.
Qed.

Lemma aliased_str_field_rejects (alias name : string)
  (o : list (string * json)) :
  absent_or_not_str (Main.by_alias_or_name alias name o) = true ->
  exists e, Main.aliased_str_field alias name o = Invalid e.
Proof.
  unfold Main.by_alias_or_name, Main.aliased_str_field.
  destruct (assoc alias o) as [v|]; [apply str_field_rejects|].
  destruct (assoc name o) as [v|]; [apply str_field_rejects|].
  intros _. eexists. reflexivity.
Qed.

(** C7: a report object in which the vehicle identifier, the route or
    the stop location is absent under its accepted spellings or is not a
    string is refused with a validation error and leaves the slot as it
    was; a report with only [route] and [stopLocation] is such a
    report. *)
Theorem ingest_rejects_incomplete_report
  (latest : Main.store) (now : string) (client : option string)
  (o : list (string * json)) :
  report_incomplete o = true ->
  (exists errs,
      Main.post_ingest latest now client (JObject o)
      = (Raise (RequestValidationError errs), latest))
  /\ (forall R L : string,
        o = [("route", JString R); ("stopLocation", JString L)] ->
        Main.post_ingest latest now client (JObject o)
        = (Raise (RequestValidationError
                    [{| loc := "vehicleNo"; type := missing |}]), latest)).
Proof.
  intros Hbad. split.
  - unfold Main.post_ingest, Main.BusReport_validate.
    unfold report_incomplete in Hbad.
    apply orb_prop in Hbad as [Hbad|Hbad];
      [apply orb_prop in Hbad as [Hbad|Hbad]|].
    + destruct (aliased_str_field_rejects "vehicleNo" "vehicle_no" _ Hbad)
        as [e ->].
      destruct (both (str_field "route" _) _) as [[? ?]|?]; simpl;
        eexists; reflexivity.
    + destruct (str_field_rejects "route" _ Hbad) as [e ->].
      destruct (Main.aliased_str_field "vehicleNo" "vehicle_no" o);
        destruct (Main.aliased_str_field "stopLocation" "stop_location" o);
        simpl; eexists; reflexivity.
    + destruct (aliased_str_field_rejects "stopLocation" "stop_location" _ Hbad)
        as [e ->].
      destruct (Main.aliased_str_field "vehicleNo" "vehicle_no" o);
        destruct (str_field "route" _); simpl; eexists; reflexivity.
  - intros R L ->. reflexivity.
Qed.

(** ** The theorems at concrete requests *)

Lemma get_schedule_selects_first_match_witness :
  Examples.get_schedule (Examples.schedules_file Examples.past_then_today)
    Examples.today "A"
  = Return Examples.response_A.
Proof.
  unfold Examples.get_schedule.
  rewrite (proj1 (get_schedule_selects_first_match
                    Examples.lax_int_of_float Examples.int_of_str
                    (Examples.schedules_file Examples.past_then_today)
                    Examples.today "A"
                    [("schedules", JArray Examples.past_then_today)]
                    Examples.past_then_today eq_refl eq_refl eq_refl)).
  reflexivity.
Defined.

Lemma get_schedule_not_found_iff_witness :
  exists detail,
    Examples.get_schedule (Examples.schedules_file Examples.past_then_today)
      Examples.today "ZZZ"
    = Raise (HTTPException 404 detail).
Proof.
  apply (proj2 (get_schedule_not_found_iff
                  Examples.lax_int_of_float Examples.int_of_str
                  (Examples.schedules_file Examples.past_then_today)
                  Examples.today "ZZZ"
                  [("schedules", JArray Examples.past_then_today)]
                  Examples.past_then_today eq_refl eq_refl eq_refl)).
  reflexivity.
Defined.

Lemma get_schedule_returns_requested_carNo_witness :
  Morning.carNo Examples.response_A = "A".
Proof.
  apply (get_schedule_returns_requested_carNo
           Examples.lax_int_of_float Examples.int_of_str
           (Examples.schedules_file Examples.past_then_today)
           Examples.today "A" Examples.response_A).
  reflexivity.
Defined.

Lemma get_schedule_validates_only_selected_witness :
  Examples.get_schedule (Examples.schedules_file Examples.among_broken)
    Examples.today "A"
  = Return {| Morning.carNo := "A"; Morning.date := None;
              Morning.trips := [{| Morning.depTime := "09:00";
                                   Morning.routeId := 2 |}] |}.
Proof.
  apply (proj1 (proj1 (get_schedule_validates_only_selected
                         Examples.lax_int_of_float Examples.int_of_str
                         (Examples.schedules_file Examples.among_broken)
                         Examples.today "A"
                         [("schedules", JArray Examples.among_broken)]
                         Examples.among_broken
                         (Examples.entry "A" None
                            (JArray [Examples.trip "09:00" 2]))
                         eq_refl eq_refl)
                  eq_refl eq_refl)).
  reflexivity.
Defined.

(** C10 (as stated) fails: the entry chosen for car "A" converts, and
    the element after it, which is not an object and matches no car,
    makes [get_schedule] raise [AttributeError]. *)
Lemma get_schedule_non_object_entry_fails :
  let good := Examples.entry "A" None (JArray [Examples.trip "09:00" 2]) in
  let l := [good; JString "junk"] in
  first_match Examples.today "A" l = Some good
  /\ carNo_matches "A" (JString "junk") = false
  /\ Examples.convert good
     = Return {| Morning.carNo := "A"; Morning.date := None;
                 Morning.trips := [{| Morning.depTime := "09:00";
                                      Morning.routeId := 2 |}] |}
  /\ Examples.get_schedule (Examples.schedules_file l) Examples.today "A"
     = Raise (AttributeError "object has no attribute 'get'")
  /\ response_status
       (Examples.get_schedule (Examples.schedules_file l) Examples.today "A")
     = 500.
Proof.
  cbv zeta. repeat split; reflexivity.
Qed.

Lemma get_schedule_malformed_trip_server_error_witness :
  exists e,
    Examples.get_schedule (Examples.schedules_file Examples.broken_trip)
      Examples.today "A" = Raise e
    /\ (e = TypeError \/ exists errs, e = ValidationError errs)
    /\ (forallb is_object
          [Examples.trip "07:30" 1; JObject [("routeId", JInt 3)]] = true ->
        exists errs, e = ValidationError errs)
    /\ response_status
         (Examples.get_schedule (Examples.schedules_file Examples.broken_trip)
            Examples.today "A") = 500
    /\ client_error
         (response_status
            (Examples.get_schedule (Examples.schedules_file Examples.broken_trip)
               Examples.today "A")) = false
    /\ server_error
         (response_status
            (Examples.get_schedule (Examples.schedules_file Examples.broken_trip)
               Examples.today "A")) = true.
Proof.
  apply (get_schedule_malformed_trip_server_error
           Examples.lax_int_of_float Examples.int_of_str
           (Examples.schedules_file Examples.broken_trip)
           Examples.today "A"
           [("schedules", JArray Examples.broken_trip)]
           Examples.broken_trip
           [("carNo", JString "A");
            ("trips", JArray [Examples.trip "07:30" 1;
                              JObject [("routeId", JInt 3)]])]
           [Examples.trip "07:30" 1; JObject [("routeId", JInt 3)]]
           [("routeId", JInt 3)]
           eq_refl eq_refl eq_refl eq_refl eq_refl).
  - right. left. reflexivity.
  - reflexivity.
Defined.

(** C4 (as stated) fails twice.  The only entry of car "A" holds a trip
    without [depTime]: [get_schedule] raises the pydantic
    [ValidationError], and the caller gets status 500, which is not a
    client error.  And a trip whose [routeId] is [true], a value of the
    wrong type, does not fail at all: the [int] field takes it as 1. *)
Lemma get_schedule_malformed_trip_not_client_error :
  let answer :=
    Examples.get_schedule (Examples.schedules_file Examples.broken_trip)
      Examples.today "A" in
  let bool_route :=
    [ Examples.entry "A" None
        (JArray [JObject [("depTime", JString "07:30");
                          ("routeId", JBool true)]]) ] in
  answer = Raise (ValidationError [{| loc := "depTime"; type := missing |}])
  /\ response_status answer = 500
  /\ ~ (client_error (response_status answer) = true)
  /\ Examples.get_schedule (Examples.schedules_file bool_route)
       Examples.today "A"
     = Return {| Morning.carNo := "A"; Morning.date := None;
                 Morning.trips := [{| Morning.depTime := "07:30";
                                      Morning.routeId := 1 |}] |}.
Proof.
  cbv zeta. split; [reflexivity|]. split; [reflexivity|].
  split; [|reflexivity].
  intros H. vm_compute in H. discriminate H.
Qed.

Lemma check_update_compares_flags_witness :
  Examples.check_update (Examples.db_file [("updateFlag", JInt 5)]) 4 1
  = Return true
  /\ Examples.check_update (Examples.db_file [("updateFlag", JInt 5)]) 5 1
     = Return false
  /\ Examples.check_update (Examples.db_file [("updateFlag", JInt 5)]) 6 1
     = Return false.
Proof.
  apply (proj2 (proj2 (proj2 (check_update_compares_flags
           Examples.int_of_str
           (Examples.db_file [("updateFlag", JInt 5)])
           [("updateFlag", JInt 5)] 5 4 1 2 eq_refl
           (or_introl eq_refl))))).
  reflexivity.
Defined.

Lemma get_data_returns_last_ingested_witness :
  Main.get_data
    (snd (Main.post_ingest
            (snd (Main.post_ingest Main._latest "2024-05-05T08:00:00"
                    (Some "10.0.0.1") (Examples.camel "12-3456" "R-101" "North")))
            "2024-05-05T08:00:05" None
            (Examples.snake "78-9012" "R-202" "South")))
  = Some {| Main.received_at := "2024-05-05T08:00:05";
            Main.source_ip := "unknown";
            Main.payload := {| Main.vehicle_no := "78-9012";
                               Main.route := "R-202";
                               Main.stop_location := "South" |} |}.
Proof.
  apply (proj1 (proj2 (get_data_returns_last_ingested
           Main._latest "2024-05-05T08:00:00" "2024-05-05T08:00:05"
           (Some "10.0.0.1") None
           (Examples.camel "12-3456" "R-101" "North")
           (Examples.snake "78-9012" "R-202" "South")
           {| Main.vehicle_no := "12-3456"; Main.route := "R-101";
              Main.stop_location := "North" |}
           {| Main.vehicle_no := "78-9012"; Main.route := "R-202";
              Main.stop_location := "South" |}
           eq_refl eq_refl))).
Defined.

Lemma ingest_rejects_incomplete_report_witness :
  exists errs,
    Main.post_ingest Main._latest "2024-05-05T08:00:00" (Some "10.0.0.1")
      (JObject [("vehicle_no", JInt 7); ("route", JString "R");
                ("stopLocation", JString "L")])
    = (Raise (RequestValidationError errs), Main._latest).
Proof.
  apply (proj1 (ingest_rejects_incomplete_report
           Main._latest "2024-05-05T08:00:00" (Some "10.0.0.1")
           [("vehicle_no", JInt 7); ("route", JString "R");
            ("stopLocation", JString "L")]
           eq_refl)).
Defined.

(** * Further properties of the handlers *)

Lemma filterM_raises {A : Type} (p : A -> result bool) (P : exn -> Prop)
  (l : list A) (e : exn) :
  (forall x e', p x = Raise e' -> P e') ->
  filterM p l = Raise e -> P e.
Proof.
  intros Hp. induction l as [|x l IH]; simpl; [discriminate|].
  destruct (p x) as [b|e'] eqn:Hx; simpl.
  - destruct (filterM p l) as [ys|e'']; simpl; [discriminate|].
    intros H. injection H as <-. apply IH. reflexivity.
  - intros H. injection H as <-. apply (Hp x). exact Hx.
Qed.

Lemma mapM_length {A B : Type} (f : A -> result B) (l : list A) (ys : list B) :
  mapM f l = Return ys -> length ys = length l.
Proof.
  revert ys. induction l as [|x l IH]; simpl; intros ys H.
  - injection H as <-. reflexivity.
  - destruct (f x) as [y|e]; simpl in H; [|discriminate].
    destruct (mapM f l) as [ys'|e]; simpl in H; [|discriminate].
    injection H as <-. simpl. f_equal. apply IH. reflexivity.
Qed.

Lemma mapM_nth {A B : Type} (f : A -> result B) (l : list A) (ys : list B)
  (i : nat) (x : A) :
  mapM f l = Return ys -> nth_error l i = Some x ->
  exists y, nth_error ys i = Some y /\ f x = Return y.
Proof.
  revert ys i. induction l as [|a l IH]; simpl; intros ys i H Hi.
  - destruct i; discriminate.
  - destruct (f a) as [y|e] eqn:Ha; simpl in H; [|discriminate].
    destruct (mapM f l) as [ys'|e]; simpl in H; [|discriminate].
    injection H as <-. destruct i as [|i]; simpl in *.
    + injection Hi as <-. exists y. split; [reflexivity | exact Ha].
    + apply (IH ys' i eq_refl Hi).
Qed.

Lemma assoc_skip {A : Type} (k name : string) (x : A)
  (o1 o2 : list (string * A)) :
  k <> name -> assoc name (o1 ++ (k, x) :: o2) = assoc name (o1 ++ o2).
Proof.
  intros Hk. induction o1 as [|[k' v] o1 IH]; simpl.
  - apply String.eqb_neq in Hk. rewrite Hk. reflexivity.
  - destruct (String.eqb k' name); [reflexivity | exact IH].
Qed.

Section MorningEdges.

Variable int_of_str : string -> option Z.
Variable lax_int_of_float : spec_float -> option Z.
Variable lax_int_of_str : string -> option Z.

Local Notation check_update := (Morning.check_update int_of_str).
Local Notation Trip_new := (Morning.Trip_new lax_int_of_float lax_int_of_str).
Local Notation convert := (Morning.convert lax_int_of_float lax_int_of_str).
Local Notation get_schedule :=
  (Morning.get_schedule lax_int_of_float lax_int_of_str).

(** What converting an entry can raise. *)
Lemma convert_raises (s : json) (e : exn) :
  convert s = Raise e ->
  e = HTTPException 500 "schedule item must contain 'trips' array"
  \/ e = TypeError
  \/ (exists errs, e = ValidationError errs)
  \/ (exists k, e = KeyError k).
Proof.
  destruct s; simpl;
    try (intros H; injection H as <-; right; left; reflexivity).
  destruct (assoc "trips" fields) as [[| | | | |ts|]|];
    try (intros H; injection H as <-; left; reflexivity).
  destruct (mapM Trip_new ts) as [trips|e'] eqn:Hts; simpl.
  - unfold py_getitem. destruct (assoc "carNo" fields) as [v|]; simpl.
    + unfold Morning.ScheduleResponse_new.
      destruct (both _ _) as [[? ?]|errs]; [discriminate|].
      intros H. injection H as <-. right. right. left. eexists. reflexivity.
    + intros H. injection H as <-. right. right. right. eexists. reflexivity.
  - intros H. injection H as <-.
    destruct (mapM_Trip_new_raise lax_int_of_float lax_int_of_str ts e' Hts)
      as [->|[errs ->]].
    + right. left. reflexivity.
    + right. right. left. eexists. reflexivity.
Qed.

(** What a returned response is made of. *)
Lemma convert_returns (o : list (string * json)) (r : Morning.ScheduleResponse) :
  convert (JObject o) = Return r ->
  exists ts,
    assoc "trips" o = Some (JArray ts)
    /\ mapM Trip_new ts = Return (Morning.trips r)
    /\ assoc "carNo" o = Some (JString (Morning.carNo r))
    /\ optional_str_field "date"
         (match assoc "date" o with Some v => v | None => JNull end)
       = Valid (Morning.date r).
Proof.
  simpl.
  destruct (assoc "trips" o) as [[| | | | |ts|]|]; try discriminate.
  destruct (mapM Trip_new ts) as [trips|e] eqn:Hts; simpl; [|discriminate].
  unfold py_getitem. destruct (assoc "carNo" o) as [c|]; simpl; [|discriminate].
  unfold Morning.ScheduleResponse_new.
  destruct c; simpl; try discriminate;
    try (destruct (optional_str_field "date" _); discriminate).
  destruct (optional_str_field "date" _) as [d|errs] eqn:Hd; simpl;
    [|discriminate].
  intros H. injection H as <-. exists ts. simpl.
  repeat split; try reflexivity; assumption.
Qed.

Lemma today_cond_raises (today car_no : string) (x : json) (e : exn) :
  Morning.today_cond today car_no x = Raise e -> exists m, e = AttributeError m.
Proof.
  unfold Morning.today_cond.
  destruct x; simpl; try (intros H; injection H as <-; eexists; reflexivity).
  destruct (eq_str _ car_no); simpl; discriminate.
Qed.

Lemma car_cond_raises (car_no : string) (x : json) (e : exn) :
  Morning.car_cond car_no x = Raise e -> exists m, e = AttributeError m.
Proof.
  unfold Morning.car_cond.
  destruct x; simpl; try (intros H; injection H as <-; eexists; reflexivity).
  discriminate.
Qed.

Lemma select_raises (today car_no : string) (l : list json) (e : exn) :
  Morning.select today car_no l = Raise e ->
  e = HTTPException 404 ("No schedule for carNo=" ++ car_no)
  \/ exists m, e = AttributeError m.
Proof.
  unfold Morning.select.
  destruct (filterM (Morning.today_cond today car_no) l) as [c|e1] eqn:H1;
    simpl.
  - destruct c as [|x c]; simpl; [|discriminate].
    destruct (filterM (Morning.car_cond car_no) l) as [c'|e2] eqn:H2; simpl.
    + destruct c'; [|discriminate]. intros H. injection H as <-. left.
      reflexivity.
    + intros H. injection H as <-. right.
      apply (filterM_raises _ (fun e => exists m, e = AttributeError m) l e2
               (car_cond_raises car_no) H2).
  - intros H. injection H as <-. right.
    apply (filterM_raises _ (fun e => exists m, e = AttributeError m) l e1
             (today_cond_raises today car_no) H1).
Qed.

Lemma first_match_carNo (today car_no : string) (l : list json) (s : json) :
  first_match today car_no l = Some s -> carNo_matches car_no s = true.
Proof.
  unfold first_match.
  destruct (find (fun s => carNo_matches car_no s && date_today_or_absent today s) l)
    as [s'|] eqn:Hf.
  - intros H. injection H as <-. apply find_some in Hf as [_ Hs].
    apply andb_prop in Hs as [Hs _]. exact Hs.
  - intros H. apply find_some in H as [_ Hs]. exact Hs.
Qed.

(** ** Update check: every state of the descriptor file *)


(** For every state of the descriptor file, [check_update] either raises
    one and the same exception for every [flag] and [orgID], or there is
    one server flag [n] it compares every [flag] with; in particular a
    client that is told to update would be told so for every smaller
    flag. *)
Theorem check_update_threshold (fs : filesystem) :
  (exists n, forall flag orgID,
      check_update fs flag orgID = Return (n >? flag))
  \/ (exists e, forall flag orgID, check_update fs flag orgID = Raise e).
Proof.
  set (sf := db <- Morning._read_json fs (PyPath Morning.DB_FILE) ;;
             v <- py_get db "updateFlag" (JInt 0) ;;
             Morning.py_int int_of_str v).
  assert (forall flag orgID,
             check_update fs flag orgID = (n <- sf ;; Return (n >? flag))) as H.
  { intros flag orgID. unfold Morning.check_update, sf.
    destruct (Morning._read_json fs _) as [db|e]; simpl; [|reflexivity].
    destruct (py_get db "updateFlag" (JInt 0)) as [v|e]; simpl; [|reflexivity].
    destruct (Morning.py_int int_of_str v); reflexivity. }
  destruct sf as [n|e].
  - left. exists n. intros. rewrite H. reflexivity.
  - right. exists e. intros. rewrite H. reflexivity.
Qed.

(** A missing or malformed backing file makes [check_update] and
    [get_schedule] raise the 500 [HTTPException] whose detail names the
    file: [db.json] for the one, [schedules.json] for the other. *)
Theorem read_failures_name_the_file
  (fs : filesystem) (today car_no : string) (flag orgID : Z) :
  match fs Morning.DB_FILE with
  | NoFile =>
      check_update fs flag orgID
      = Raise (HTTPException 500 "Server data file not found: db.json")
  | BadJson msg =>
      check_update fs flag orgID
      = Raise (HTTPException 500 ("Invalid JSON in db.json: " ++ msg))
  | Json _ => True
  end
  /\ match fs Morning.SCHEDULES_FILE with
     | NoFile =>
         get_schedule fs today car_no
         = Raise (HTTPException 500
                    "Server data file not found: schedules.json")
     | BadJson msg =>
         get_schedule fs today car_no
         = Raise (HTTPException 500 ("Invalid JSON in schedules.json: " ++ msg))
     | Json _ => True
     end.
Proof.
  split.
  - unfold Morning.check_update, Morning._read_json.
    destruct (fs Morning.DB_FILE); simpl; auto.
  - unfold Morning.get_schedule, Morning._read_json.
    destruct (fs Morning.SCHEDULES_FILE); simpl; auto.
Qed.

(** ** Schedule lookup: every state of the schedules file *)

(** [get_schedule] answers 200, 404 or 500 and nothing else. *)
Theorem get_schedule_status_200_404_500
  (fs : filesystem) (today car_no : string) :
  response_status (get_schedule fs today car_no) = 200
  \/ response_status (get_schedule fs today car_no) = 404
  \/ response_status (get_schedule fs today car_no) = 500.
Proof.
  unfold Morning.get_schedule, Morning._read_json.
  destruct (fs Morning.SCHEDULES_FILE) as [|msg|v]; simpl; auto.
  destruct v; simpl; auto.
  destruct (match assoc "schedules" fields with
            | Some v => v
            | None => JArray []
            end) as [| | | | |items|]; simpl; auto.
  destruct (Morning.select today car_no items) as [s|e] eqn:Hs; simpl.
  - destruct (convert s) as [r|e] eqn:Hc; simpl; auto.
    destruct (convert_raises s e Hc) as [->|[->|[[errs ->]|[k ->]]]];
      simpl; auto.
  - destruct (select_raises today car_no items e Hs) as [->|[m ->]];
      simpl; auto.
Qed.

(** A schedules document without a [schedules] key counts as an empty
    collection: every car number gets the 404. *)
Theorem get_schedule_without_schedules_key
  (fs : filesystem) (today car_no : string) (doc : list (string * json)) :
  fs Morning.SCHEDULES_FILE = Json (JObject doc) ->
  assoc "schedules" doc = None ->
  get_schedule fs today car_no
  = Raise (HTTPException 404 ("No schedule for carNo=" ++ car_no)).
Proof.
  intros Hfs Hdoc. unfold Morning.get_schedule, Morning._read_json.
  rewrite Hfs. simpl. rewrite Hdoc. reflexivity.
Qed.

(** A [schedules] value that is not an array is refused with the 500
    that says so, before any entry is looked at. *)
Theorem get_schedule_schedules_not_array
  (fs : filesystem) (today car_no : string) (doc : list (string * json))
  (v : json) :
  fs Morning.SCHEDULES_FILE = Json (JObject doc) ->
  assoc "schedules" doc = Some v ->
  is_array v = false ->
  get_schedule fs today car_no
  = Raise (HTTPException 500 "schedules.json must contain 'schedules' array").
Proof.
  intros Hfs Hdoc Hv. unfold Morning.get_schedule, Morning._read_json.
  rewrite Hfs. simpl. rewrite Hdoc.
  destruct v; try discriminate; reflexivity.
Qed.

(** When some entry of the car counts for today, a returned response is
    undated or dated today: an entry of another day is never served in
    its place. *)
Theorem get_schedule_today_entry_date
  (fs : filesystem) (today car_no : string)
  (doc : list (string * json)) (l : list json) (r : Morning.ScheduleResponse) :
  fs Morning.SCHEDULES_FILE = Json (JObject doc) ->
  assoc "schedules" doc = Some (JArray l) ->
  forallb is_object l = true ->
  existsb (fun s => carNo_matches car_no s && date_today_or_absent today s) l
  = true ->
  get_schedule fs today car_no = Return r ->
  Morning.date r = None \/ Morning.date r = Some today.
Proof.
  intros Hfs Hdoc Hl Hex.
  rewrite (get_schedule_first_match_gen lax_int_of_float lax_int_of_str
             fs today car_no doc l Hfs Hdoc Hl).
  unfold first_match.
  destruct (find (fun s => carNo_matches car_no s && date_today_or_absent today s) l)
    as [s|] eqn:Hf.
  - apply find_some in Hf as [_ Hs]. apply andb_prop in Hs as [_ Hd].
    destruct s; try discriminate. intros Hr.
    apply convert_returns in Hr as (ts & _ & _ & _ & Hdate).
    simpl in Hd. destruct (assoc "date" fields) as [d|].
    + destruct d; try discriminate. simpl in Hd, Hdate.
      apply String.eqb_eq in Hd. subst s. injection Hdate as <-.
      right. reflexivity.
    + simpl in Hdate. injection Hdate as <-. left. reflexivity.
  - apply find_none_existsb in Hf. congruence.
Qed.

(** A returned response carries the chosen entry's trips, as many and in
    the same order, each the conversion of the element at its place, and
    the entry's [date] when that is a string, none otherwise. *)
Theorem get_schedule_response_from_entry
  (fs : filesystem) (today car_no : string)
  (doc : list (string * json)) (l : list json)
  (o : list (string * json)) (r : Morning.ScheduleResponse) :
  fs Morning.SCHEDULES_FILE = Json (JObject doc) ->
  assoc "schedules" doc = Some (JArray l) ->
  forallb is_object l = true ->
  first_match today car_no l = Some (JObject o) ->
  get_schedule fs today car_no = Return r ->
  exists ts,
    assoc "trips" o = Some (JArray ts)
    /\ length (Morning.trips r) = length ts
    /\ (forall i t, nth_error ts i = Some t ->
        exists x, nth_error (Morning.trips r) i = Some x
                  /\ Trip_new t = Return x)
    /\ Morning.date r
       = match assoc "date" o with Some (JString d) => Some d | _ => None end.
Proof.
  intros Hfs Hdoc Hl Hsel.
  rewrite (get_schedule_first_match_gen lax_int_of_float lax_int_of_str
             fs today car_no doc l Hfs Hdoc Hl), Hsel.
  intros Hr. apply convert_returns in Hr as (ts & Hts & Hm & _ & Hdate).
  exists ts. split; [exact Hts|]. split; [exact (mapM_length _ _ _ Hm)|].
  split.
  - intros i t Hi. exact (mapM_nth _ _ _ i t Hm Hi).
  - destruct (assoc "date" o) as [[| | | |d| |]|]; simpl in Hdate;
      try discriminate; injection Hdate as <-; reflexivity.
Qed.

(** A chosen entry without a [trips] key, or with [trips] that is not an
    array, is refused with the 500 that says so. *)
Theorem get_schedule_entry_without_trips
  (fs : filesystem) (today car_no : string)
  (doc : list (string * json)) (l : list json) (o : list (string * json)) :
  fs Morning.SCHEDULES_FILE = Json (JObject doc) ->
  assoc "schedules" doc = Some (JArray l) ->
  forallb is_object l = true ->
  first_match today car_no l = Some (JObject o) ->
  match assoc "trips" o with Some v => is_array v | None => false end = false ->
  get_schedule fs today car_no
  = Raise (HTTPException 500 "schedule item must contain 'trips' array").
Proof.
  intros Hfs Hdoc Hl Hsel Htrips.
  rewrite (get_schedule_first_match_gen lax_int_of_float lax_int_of_str
             fs today car_no doc l Hfs Hdoc Hl), Hsel.
  simpl. destruct (assoc "trips" o) as [[| | | | | |]|];
    try discriminate; reflexivity.
Qed.

(** A chosen entry with usable trips whose [date] is neither a string
    nor null, which only the date-ignoring fallback can choose, fails the
    response model: the handler lets the [ValidationError] escape and the
    caller gets a 500. *)
Theorem get_schedule_date_of_wrong_type
  (fs : filesystem) (today car_no : string)
  (doc : list (string * json)) (l : list json)
  (o : list (string * json)) (ts : list json) (trips : list Morning.Trip)
  (d : json) :
  fs Morning.SCHEDULES_FILE = Json (JObject doc) ->
  assoc "schedules" doc = Some (JArray l) ->
  forallb is_object l = true ->
  first_match today car_no l = Some (JObject o) ->
  assoc "trips" o = Some (JArray ts) ->
  mapM Trip_new ts = Return trips ->
  assoc "date" o = Some d ->
  is_string d = false -> d <> JNull ->
  get_schedule fs today car_no
  = Raise (ValidationError [{| loc := "date"; type := string_type |}])
  /\ response_status (get_schedule fs today car_no) = 500
  /\ date_today_or_absent today (JObject o) = false.
Proof.
  intros Hfs Hdoc Hl Hsel Htrips Hm Hdate Hstr Hnull.
  pose proof (first_match_carNo _ _ _ _ Hsel) as Hc. simpl in Hc.
  rewrite (get_schedule_first_match_gen lax_int_of_float lax_int_of_str
             fs today car_no doc l Hfs Hdoc Hl), Hsel.
  simpl. rewrite Htrips, Hm, Hdate. simpl. unfold py_getitem.
  destruct (assoc "carNo" o) as [c|]; [|discriminate].
  destruct c; try discriminate. simpl.
  destruct d; try discriminate; try (repeat split; reflexivity).
  contradiction Hnull. reflexivity.
Qed.

End MorningEdges.

(** ** Ingestion: every request body *)

Lemma str_field_valid (name : string) (v : option json) (s : string) :
  str_field name v = Valid s <-> v = Some (JString s).
Proof.
  destruct v as [[| | | |s'| |]|]; simpl; split; intros H;
    try discriminate; [injection H as <- | injection H as <-]; reflexivity.
Qed.

Lemma aliased_str_field_valid (alias name : string)
  (o : list (string * json)) (s : string) :
  Main.aliased_str_field alias name o = Valid s
  <-> Main.by_alias_or_name alias name o = Some (JString s).
Proof.
  unfold Main.aliased_str_field, Main.by_alias_or_name.
  destruct (assoc alias o) as [v|]; [apply str_field_valid|].
  destruct (assoc name o) as [v|]; apply str_field_valid.
Qed.

Lemma str_field_errors (name : string) (v : option json) :
  errors_of (str_field name v)
  = if absent_or_not_str v then [{| loc := name; type := refusal v |}] else [].
Proof.
  destruct v as [[| | | | | |]|]; reflexivity.
Qed.

Lemma aliased_str_field_errors (alias name : string)
  (o : list (string * json)) :
  errors_of (Main.aliased_str_field alias name o)
  = if absent_or_not_str (Main.by_alias_or_name alias name o)
    then [{| loc := reported_key alias name o;
             type := refusal (Main.by_alias_or_name alias name o) |}]
    else [].
Proof.
  unfold Main.aliased_str_field, Main.by_alias_or_name, reported_key.
  destruct (assoc alias o) as [v|].
  - rewrite str_field_errors. destruct (assoc name o); reflexivity.
  - destruct (assoc name o) as [v|]; rewrite str_field_errors; reflexivity.
Qed.

(** [POST /ingest] has two outcomes: 200 with a record that carries the
    validated report, the time of the request and the client's host
    ("unknown" without a client) and that is also what the slot then
    holds; or 422 with the slot untouched. *)
Theorem post_ingest_outcomes
  (latest : Main.store) (now : string) (client : option string) (body : json) :
  (exists p,
      Main.BusReport_validate body = Valid p
      /\ Main.post_ingest latest now client body
         = (Return {| Main.received_at := now;
                      Main.source_ip :=
                        match client with Some h => h | None => "unknown" end;
                      Main.payload := p |},
            Some {| Main.received_at := now;
                    Main.source_ip :=
                      match client with Some h => h | None => "unknown" end;
                    Main.payload := p |})
      /\ response_status (fst (Main.post_ingest latest now client body)) = 200)
  \/ (exists errs,
         Main.BusReport_validate body = Invalid errs
         /\ Main.post_ingest latest now client body
            = (Raise (RequestValidationError errs), latest)
         /\ response_status (fst (Main.post_ingest latest now client body))
            = 422).
Proof.
  unfold Main.post_ingest.
  destruct (Main.BusReport_validate body) as [p|errs]; simpl.
  - left. exists p. repeat split; reflexivity.
  - right. exists errs. repeat split; reflexivity.
Qed.

(** A report object is accepted exactly when each of its three fields,
    looked up under the alias first and the field name second, is a
    string, and the accepted report holds those three strings. *)
Theorem BusReport_accepts_iff_three_strings
  (o : list (string * json)) (p : Main.BusReport) :
  Main.BusReport_validate (JObject o) = Valid p
  <-> (Main.by_alias_or_name "vehicleNo" "vehicle_no" o
       = Some (JString (Main.vehicle_no p))
       /\ assoc "route" o = Some (JString (Main.route p))
       /\ Main.by_alias_or_name "stopLocation" "stop_location" o
          = Some (JString (Main.stop_location p))).
Proof.
  unfold Main.BusReport_validate.
  split.
  - destruct (Main.aliased_str_field "vehicleNo" "vehicle_no" o)
      as [v|e1] eqn:Hv;
      destruct (str_field "route" (assoc "route" o)) as [r|e2] eqn:Hr;
      destruct (Main.aliased_str_field "stopLocation" "stop_location" o)
        as [l|e3] eqn:Hl;
      simpl; try discriminate.
    intros H. injection H as <-. simpl.
    apply aliased_str_field_valid in Hv, Hl. apply str_field_valid in Hr.
    auto.
  - intros (Hv & Hr & Hl).
    apply aliased_str_field_valid in Hv, Hl.
    apply (str_field_valid "route") in Hr.
    rewrite Hv, Hr, Hl. simpl. destruct p; reflexivity.
Qed.

(** The validation error lists one entry for each field that is absent
    or not a string, in the order vehicle, route, stop: [missing] at the
    alias for an absent field, [string_type] at the key the value was
    found at for a value that is not a string. *)
Theorem BusReport_errors_one_per_field (o : list (string * json)) :
  errors_of (Main.BusReport_validate (JObject o))
  = ((if absent_or_not_str (Main.by_alias_or_name "vehicleNo" "vehicle_no" o)
      then [{| loc := reported_key "vehicleNo" "vehicle_no" o;
               type := refusal
                         (Main.by_alias_or_name "vehicleNo" "vehicle_no" o) |}]
      else [])
     ++ (if absent_or_not_str (assoc "route" o)
         then [{| loc := "route"; type := refusal (assoc "route" o) |}]
         else [])
     ++ (if absent_or_not_str
              (Main.by_alias_or_name "stopLocation" "stop_location" o)
         then [{| loc := reported_key "stopLocation" "stop_location" o;
                  type := refusal
                            (Main.by_alias_or_name
                               "stopLocation" "stop_location" o) |}]
         else []))%list.
Proof.
  rewrite <- !aliased_str_field_errors, <- str_field_errors.
  unfold Main.BusReport_validate.
  destruct (Main.aliased_str_field "vehicleNo" "vehicle_no" o);
    destruct (str_field "route" (assoc "route" o));
    destruct (Main.aliased_str_field "stopLocation" "stop_location" o);
    simpl; rewrite ?app_nil_r; reflexivity.
Qed.

(** A key that is none of the five [BusReport] reads changes nothing,
    wherever it stands in the body and whatever it holds. *)
Theorem ingest_ignores_other_keys
  (latest : Main.store) (now : string) (client : option string)
  (o1 o2 : list (string * json)) (k : string) (x : json) :
  ~ In k report_keys ->
  Main.post_ingest latest now client (JObject (o1 ++ (k, x) :: o2))
  = Main.post_ingest latest now client (JObject (o1 ++ o2)).
Proof.
  intros Hk. unfold report_keys in Hk. simpl in Hk.
  assert (forall name, In name report_keys ->
                       assoc name (o1 ++ (k, x) :: o2) = assoc name (o1 ++ o2))
    as Hskip.
  { intros name Hin. apply assoc_skip. intros ->. apply Hk. exact Hin. }
  unfold Main.post_ingest, Main.BusReport_validate, Main.aliased_str_field.
  rewrite (Hskip "vehicleNo"), (Hskip "vehicle_no"), (Hskip "route"),
    (Hskip "stopLocation"), (Hskip "stop_location");
    try reflexivity; unfold report_keys; simpl; tauto.
Qed.

(** ** The slot over a run of requests *)

Lemma serve_one_cases (latest : Main.store) (r : ingest_request) :
  serve_one latest r =
  match Main.BusReport_validate (body r) with
  | Valid p =>
      Some {| Main.received_at := at_time r;
              Main.source_ip :=
                match from_client r with Some h => h | None => "unknown" end;
              Main.payload := p |}
  | Invalid _ => latest
  end.
Proof.
  unfold serve_one, Main.post_ingest.
  destruct (Main.BusReport_validate (body r)); reflexivity.
Qed.

Lemma serve_all_rejected (latest : Main.store) (reqs : list ingest_request) :
  forallb (fun r => negb (accepted r)) reqs = true ->
  serve latest reqs = latest.
Proof.
  unfold serve. revert latest.
  induction reqs as [|r reqs IH]; simpl; intros latest H; [reflexivity|].
  apply andb_prop in H as [Hr Hreqs]. rewrite (IH _ Hreqs).
  rewrite serve_one_cases. unfold accepted in Hr.
  destruct (Main.BusReport_validate (body r)); [discriminate | reflexivity].
Qed.

(** After any run of requests the slot holds the record of the last
    accepted one, whatever the slot held before and whatever was
    accepted or refused earlier or refused later. *)
Theorem serve_keeps_last_accepted
  (latest : Main.store) (before after : list ingest_request)
  (r : ingest_request) (p : Main.BusReport) :
  Main.BusReport_validate (body r) = Valid p ->
  forallb (fun r' => negb (accepted r')) after = true ->
  Main.get_data (serve latest (before ++ r :: after))
  = Some {| Main.received_at := at_time r;
            Main.source_ip :=
              match from_client r with Some h => h | None => "unknown" end;
            Main.payload := p |}.
Proof.
  intros Hp Hafter. unfold Main.get_data.
  unfold serve. rewrite fold_left_app. simpl.
  fold (serve (serve_one (fold_left serve_one before latest) r) after).
  rewrite (serve_all_rejected _ _ Hafter), serve_one_cases, Hp. reflexivity.
Qed.

(** Starting from the empty slot, [get_data] still returns [None] after
    a run of requests exactly when none of them was accepted. *)
Theorem serve_none_iff_none_accepted (reqs : list ingest_request) :
  Main.get_data (serve Main._latest reqs) = None
  <-> forallb (fun r => negb (accepted r)) reqs = true.
Proof.
  unfold Main.get_data, Main._latest.
  assert (forall latest,
             serve latest reqs = None
             <-> latest = None
                 /\ forallb (fun r => negb (accepted r)) reqs = true) as H.
  { unfold serve. induction reqs as [|r reqs IH]; simpl; intros latest.
    - tauto.
    - rewrite IH, serve_one_cases. unfold accepted.
      destruct (Main.BusReport_validate (body r)); simpl.
      + split; [intros [H _]; discriminate | intros [_ H]; discriminate].
      + tauto. }
  rewrite H. tauto.
Qed.

(** ** The further properties at concrete requests *)

Lemma get_schedule_without_schedules_key_witness :
  Examples.get_schedule
    (Examples.one_file Morning.SCHEDULES_FILE (JObject [("version", JInt 3)]))
    Examples.today "A"
  = Raise (HTTPException 404 "No schedule for carNo=A").
Proof.
  apply (get_schedule_without_schedules_key
           Examples.lax_int_of_float Examples.int_of_str
           (Examples.one_file Morning.SCHEDULES_FILE
              (JObject [("version", JInt 3)]))
           Examples.today "A" [("version", JInt 3)] eq_refl eq_refl).
Defined.

Lemma get_schedule_schedules_not_array_witness :
  Examples.get_schedule
    (Examples.one_file Morning.SCHEDULES_FILE
       (JObject [("schedules", JObject [("A", JArray [])])]))
    Examples.today "A"
  = Raise (HTTPException 500 "schedules.json must contain 'schedules' array").
Proof.
  apply (get_schedule_schedules_not_array
           Examples.lax_int_of_float Examples.int_of_str
           (Examples.one_file Morning.SCHEDULES_FILE
              (JObject [("schedules", JObject [("A", JArray [])])]))
           Examples.today "A"
           [("schedules", JObject [("A", JArray [])])]
           (JObject [("A", JArray [])]) eq_refl eq_refl eq_refl).
Defined.

Lemma get_schedule_today_entry_date_witness :
  Morning.date Examples.response_A = None
  \/ Morning.date Examples.response_A = Some Examples.today.
Proof.
  apply (get_schedule_today_entry_date
           Examples.lax_int_of_float Examples.int_of_str
           (Examples.schedules_file Examples.past_then_today)
           Examples.today "A"
           [("schedules", JArray Examples.past_then_today)]
           Examples.past_then_today Examples.response_A
           eq_refl eq_refl eq_refl eq_refl eq_refl).
Defined.

Lemma get_schedule_response_from_entry_witness :
  exists ts,
    assoc "trips"
      [("carNo", JString "A"); ("date", JString Examples.today);
       ("trips", JArray [Examples.trip "09:00" 2])]
    = Some (JArray ts)
    /\ length (Morning.trips Examples.response_A) = length ts
    /\ (forall i t, nth_error ts i = Some t ->
        exists x, nth_error (Morning.trips Examples.response_A) i = Some x
                  /\ Morning.Trip_new Examples.lax_int_of_float
                       Examples.int_of_str t = Return x)
    /\ Morning.date Examples.response_A = Some Examples.today.
Proof.
  apply (get_schedule_response_from_entry
           Examples.lax_int_of_float Examples.int_of_str
           (Examples.schedules_file Examples.past_then_today)
           Examples.today "A"
           [("schedules", JArray Examples.past_then_today)]
           Examples.past_then_today
           [("carNo", JString "A"); ("date", JString Examples.today);
            ("trips", JArray [Examples.trip "09:00" 2])]
           Examples.response_A
           eq_refl eq_refl eq_refl eq_refl eq_refl).
Defined.

Lemma get_schedule_entry_without_trips_witness :
  Examples.get_schedule
    (Examples.schedules_file
       [JObject [("carNo", JString "B"); ("trips", JString "none")]])
    Examples.today "B"
  = Raise (HTTPException 500 "schedule item must contain 'trips' array").
Proof.
  apply (get_schedule_entry_without_trips
           Examples.lax_int_of_float Examples.int_of_str
           (Examples.schedules_file
              [JObject [("carNo", JString "B"); ("trips", JString "none")]])
           Examples.today "B"
           [("schedules",
             JArray [JObject [("carNo", JString "B");
                              ("trips", JString "none")]])]
           [JObject [("carNo", JString "B"); ("trips", JString "none")]]
           [("carNo", JString "B"); ("trips", JString "none")]
           eq_refl eq_refl eq_refl eq_refl eq_refl).
Defined.

Lemma get_schedule_date_of_wrong_type_witness :
  Examples.get_schedule
    (Examples.schedules_file
       [JObject [("carNo", JString "A"); ("date", JInt 20240505);
                 ("trips", JArray [Examples.trip "09:00" 2])]])
    Examples.today "A"
  = Raise (ValidationError [{| loc := "date"; type := string_type |}]).
Proof.
  apply (proj1 (get_schedule_date_of_wrong_type
           Examples.lax_int_of_float Examples.int_of_str
           (Examples.schedules_file
              [JObject [("carNo", JString "A"); ("date", JInt 20240505);
                        ("trips", JArray [Examples.trip "09:00" 2])]])
           Examples.today "A"
           [("schedules",
             JArray [JObject [("carNo", JString "A"); ("date", JInt 20240505);
                              ("trips", JArray [Examples.trip "09:00" 2])]])]
           [JObject [("carNo", JString "A"); ("date", JInt 20240505);
                     ("trips", JArray [Examples.trip "09:00" 2])]]
           [("carNo", JString "A"); ("date", JInt 20240505);
            ("trips", JArray [Examples.trip "09:00" 2])]
           [Examples.trip "09:00" 2]
           [{| Morning.depTime := "09:00"; Morning.routeId := 2 |}]
           (JInt 20240505)
           eq_refl eq_refl eq_refl eq_refl eq_refl eq_refl eq_refl eq_refl
           (fun H => eq_ind (JInt 20240505)
                       (fun v => match v with JInt _ => True | _ => False end)
                       I JNull H))).
Defined.

Lemma ingest_ignores_other_keys_witness :
  Main.post_ingest Main._latest "2024-05-05T08:00:00" None
    (JObject [("vehicleNo", JString "X"); ("extra", JInt 123);
              ("route", JString "R"); ("stopLocation", JString "L")])
  = Main.post_ingest Main._latest "2024-05-05T08:00:00" None
      (Examples.camel "X" "R" "L").
Proof.
  apply (ingest_ignores_other_keys Main._latest "2024-05-05T08:00:00" None
           [("vehicleNo", JString "X")]
           [("route", JString "R"); ("stopLocation", JString "L")]
           "extra" (JInt 123)).
  unfold report_keys. simpl.
  intros [H|[H|[H|[H|[H|H]]]]]; try discriminate H. exact H.
Defined.

Lemma serve_keeps_last_accepted_witness :
  Main.get_data
    (serve Main._latest
       [ {| at_time := "08:00:00"; from_client := Some "10.0.0.1";
            body := Examples.camel "12-3456" "R-101" "North" |};
         {| at_time := "08:00:05"; from_client := None;
            body := Examples.snake "78-9012" "R-202" "South" |};
         {| at_time := "08:00:10"; from_client := Some "10.0.0.2";
            body := JObject [("route", JString "R-303")] |} ])
  = Some {| Main.received_at := "08:00:05";
            Main.source_ip := "unknown";
            Main.payload := {| Main.vehicle_no := "78-9012";
                               Main.route := "R-202";
                               Main.stop_location := "South" |} |}.
Proof.
  apply (serve_keeps_last_accepted Main._latest
           [ {| at_time := "08:00:00"; from_client := Some "10.0.0.1";
                body := Examples.camel "12-3456" "R-101" "North" |} ]
           [ {| at_time := "08:00:10"; from_client := Some "10.0.0.2";
                body := JObject [("route", JString "R-303")] |} ]
           {| at_time := "08:00:05"; from_client := None;
              body := Examples.snake "78-9012" "R-202" "South" |}
           {| Main.vehicle_no := "78-9012"; Main.route := "R-202";
              Main.stop_location := "South" |}
           eq_refl eq_refl).
Defined.

(** ** Full-payload fetch of [main.py] *)

(** [get_db_json] of [main.py] returns a value exactly when [data.json]
    holds well-formed JSON, and then that value; otherwise the caller
    gets a 500, from the [HTTPException] for a missing file or from the
    decoder's exception, which this module does not catch; [orgID] plays
    no part. *)
Theorem main_get_db_json_returns_iff
  (fs : filesystem) (orgID orgID' : Z) (v : json) :
  (Main.get_db_json fs orgID = Return v <-> fs ["data.json"] = Json v)
  /\ (response_status (Main.get_db_json fs orgID) = 200
      \/ response_status (Main.get_db_json fs orgID) = 500)
  /\ (forall msg, fs ["data.json"] = BadJson msg ->
        Main.get_db_json fs orgID = Raise (JSONDecodeError msg))
  /\ Main.get_db_json fs orgID' = Main.get_db_json fs orgID.
Proof.
  unfold Main.get_db_json, Main._read_json.
  destruct (fs ["data.json"]) as [|msg|w]; simpl; repeat split;
    try discriminate; auto; try congruence.
Qed.

Lemma main_get_db_json_returns_iff_witness :
  Main.get_db_json
    (Examples.one_file ["data.json"] (JObject [("stops", JArray [])])) 7
  = Return (JObject [("stops", JArray [])]).
Proof.
  apply (proj2 (proj1 (main_get_db_json_returns_iff
           (Examples.one_file ["data.json"] (JObject [("stops", JArray [])]))
           7 7 (JObject [("stops", JArray [])])))).
  reflexivity.
Defined.
